(** * A shallow embedding of the evaluator of github.com/kuwa72/matcher

    The Go package compiles a query such as [a = 1 AND (b > 5 OR c = "foo")]
    into an expression tree ([Expression] / [OrCondition] / [Condition] /
    [Predicate] / [Compare] / [Value]) and evaluates it against a
    [Context] ([map[string]interface{}]).

    Modelling choices:
    - a Go [interface{}] value held in the record is a [GoValue], tagged by
      its dynamic type (the Go type switch dispatches on that tag);
    - [float64] (and a [float32] widened) is Rocq's primitive IEEE-754
      binary64 [float]; the Go operators [==], [!=], [<], [<=], [>], [>=] on
      float64 are [PrimFloat.eqb], its negation, [ltb] and [leb];
    - integers are [Z]; a value of kind [int] or [int64] is a 64-bit
      signed integer;
    - a Go [string] is a byte sequence: [String.string] (8-bit ascii);
    - a Go function returning [(bool, error)] returns a [result]:
      [Ok b] is [(b, nil)], [Err e] is [(false, e)] (every error return of
      the package has [false] as its boolean), and [Panic msg] is a Go
      run-time panic (failed type assertion, nil dereference), which no
      function of the package recovers;
    - the regular-expression engine, [fmt.Sprintf("%f", _)] and the
      scheduling of the time-boxed regex compilation are parameters of the
      development (Section variables);
    - the lexer rules of [NewParser] are executable matchers on byte
      strings, one per rule, tried in the order of the rule list. *)

From Stdlib Require Import ZArith Bool List Ascii String.
From Stdlib Require Import PrimInt63 PrimFloat.
From stdpp Require Import base gmap strings.

Import ListNotations.
#[local] Set Warnings "-register-all".
Local Open Scope string_scope.

(** ** Runtime values held in a [Context] *)

(** The dynamic type and value of an [interface{}] field value. JSON
    decoding produces [GoFloat64], [GoString], [GoBool], [GoNil],
    [GoSlice] and [GoObject]; a Go caller may store any other kind. *)
Inductive GoValue : Type :=
| GoFloat32 (f : float)
| GoFloat64 (f : float)
| GoInt (z : Z)
| GoInt8 (z : Z)
| GoInt16 (z : Z)
| GoInt32 (z : Z)
| GoInt64 (z : Z)
| GoUint (z : Z)
| GoUint8 (z : Z)
| GoUint16 (z : Z)
| GoUint32 (z : Z)
| GoUint64 (z : Z)
| GoString (s : string)
| GoBool (b : bool)
| GoNil
| GoSlice (xs : list GoValue)
| GoObject (kvs : list (string * GoValue)).

(** [%T] of a value. *)
Definition type_name (x : GoValue) : string :=
  match x with
  | GoFloat32 _ => "float32" | GoFloat64 _ => "float64"
  | GoInt _ => "int" | GoInt8 _ => "int8" | GoInt16 _ => "int16"
  | GoInt32 _ => "int32" | GoInt64 _ => "int64"
  | GoUint _ => "uint" | GoUint8 _ => "uint8" | GoUint16 _ => "uint16"
  | GoUint32 _ => "uint32" | GoUint64 _ => "uint64"
  | GoString _ => "string" | GoBool _ => "bool" | GoNil => "<nil>"
  | GoSlice _ => "[]interface {}" | GoObject _ => "map[string]interface {}"
  end.

(** [type Context map[string]interface{}] *)
Abbreviation Context := (gmap string GoValue).

(** ** Go conversions and library functions used by [Predicate.Eval] *)

Fixpoint int63_of_pos (p : positive) : PrimInt63.int :=
  match p with
  | xH => 1%uint63
  | xO q => PrimInt63.lsl (int63_of_pos q) 1%uint63
  | xI q => PrimInt63.add (PrimInt63.lsl (int63_of_pos q) 1%uint63) 1%uint63
  end.

(** [float64(i)] for a 64-bit signed [i] (round to nearest even, as the
    hardware conversion). [-2^63] is [-(2^62 * 2)], exact. *)
Definition float64_of_int64 (z : Z) : float :=
  match z with
  | Z0 => PrimFloat.zero
  | Zpos p => PrimFloat.of_uint63 (int63_of_pos p)
  | Zneg p =>
      if Pos.eqb p (2 ^ 63)%positive
      then PrimFloat.opp (PrimFloat.mul (PrimFloat.of_uint63 (int63_of_pos (2 ^ 62)%positive)) PrimFloat.two)
      else PrimFloat.opp (PrimFloat.of_uint63 (int63_of_pos p))
  end.

(** Go's [<], [<=], [>], [>=] on strings: bytewise lexicographic order. *)
Definition string_lt (a b : string) : bool :=
  match String.compare a b with Lt => true | _ => false end.
Definition string_le (a b : string) : bool :=
  match String.compare a b with Gt => false | _ => true end.

(** [strconv.ParseBool] *)
Definition ParseBool (s : string) : option bool :=
  if existsb (String.eqb s) ["1"; "t"; "T"; "TRUE"; "true"; "True"] then Some true
  else if existsb (String.eqb s) ["0"; "f"; "F"; "FALSE"; "false"; "False"] then Some false
  else None.

Section Matcher.

(** The compiled [*regexp.Regexp] of the Go standard library and its
    [MatchString] (true iff the pattern matches somewhere in the input). *)
Context {regexp : Type}.
Variable MatchString : regexp -> string -> bool.
(** [fmt.Sprintf("%f", f)]. *)
Variable Sprintf_f : float -> string.

(** ** The expression tree (as built by the participle grammar tags) *)

(** [type RegexVal struct { Pattern string; Regexp *regexp.Regexp }] *)
Record RegexVal : Type := mkRegexVal {
  Pattern : string;
  Regexp : option regexp
}.

(** [type Value struct { Float *float64; String *string; Regex *RegexVal;
    Boolean *bool; Null bool }]: the grammar populates exactly one of the
    alternatives [@Float | @String | @Regex | @("TRUE"|"FALSE") | @"NULL"]. *)
Inductive Value : Type :=
| VFloat (f : float)
| VString (s : string)
| VRegex (r : RegexVal)
| VBoolean (b : bool)
| VNull.

(** [type Compare struct { Operator string; Value *Value }] *)
Record Compare : Type := mkCompare {
  Operator : string;
  CValue : Value
}.

(** [type Predicate struct { Symbol string; Compare *Compare }] *)
Record Predicate : Type := mkPredicate {
  Symbol : string;
  PCompare : Compare
}.

(** [Expression { Or []*OrCondition }], [OrCondition { And []*Condition }],
    [Condition { Nested *Expression | Predicate *Predicate }]. *)
Inductive Expression : Type :=
| mkExpression (Or : list OrCondition)
with OrCondition : Type :=
| mkOrCondition (And : list Condition)
with Condition : Type :=
| Nested (e : Expression)
| CPredicate (p : Predicate).

(** ** Errors and results *)

Inductive error : Type :=
| ErrInvalidCondition                     (* "invalid condition" *)
| ErrInvalidPredicate                     (* "invalid predicate" *)
| ErrEvaluatingOr (e : error)             (* "evaluating OR condition: %w" *)
| ErrEvaluatingAnd (e : error)            (* "evaluating AND condition: %w" *)
| ErrRegexNonString (x : GoValue)         (* "cannot apply regex to non-string value: %T" *)
| ErrNotBoolValue (s : string)            (* "is not bool value:%s, %w" *)
| ErrUnknownValueType (v : Value)         (* "unknown value type: %#v" *)
| ErrBooleanOrder (v : Value)             (* "boolean did not compare by greater/less then: %#v" *)
| ErrRegexOrder (op : string)             (* "cannot use %s operator with regex pattern" *)
| ErrUnknownOperator (op : string)        (* "unknown operator: %s" *)
| ErrFailedComparison (x : GoValue)       (* "failed to complete comparison, type: %T: %#v" *)
| ErrNilContext                           (* "nil context provided" *)
| ErrNilGoContext                         (* "nil context.Context provided" *)
| ErrCanceled                             (* context.Canceled *)
| ErrDeadlineExceeded                     (* context.DeadlineExceeded *)
| ErrNoRegexPattern                       (* "no regex pattern to capture" *)
| ErrInvalidRegexLiteral (s : string)     (* "invalid regex pattern: %s" *)
| ErrRegexTooLong (n : nat)               (* "regex pattern too long: %d characters (max %d)" *)
| ErrRegexTooComplex (n : nat)            (* "regex pattern too complex: %d complexity score (max %d)" *)
| ErrRegexCompile (msg : string)          (* "invalid regex pattern: %w" *)
| ErrRegexTimeout.                        (* "regex compilation timed out: ..." *)

(** [(bool, error)] returns, and run-time panics. *)
Inductive result : Type :=
| Ok (b : bool)
| Err (e : error)
| Panic (msg : string).

(** Go type assertions [x.(T)] on an [interface{}] holding [x]: the
    dynamic type must be exactly [T], otherwise a run-time panic. *)
Definition conv_panic (x : GoValue) (T : string) : result :=
  Panic ("interface conversion: interface {} is " ++ type_name x ++ ", not " ++ T).

Definition assert_float64 (x : GoValue) (k : float -> result) : result :=
  match x with GoFloat64 f => k f | _ => conv_panic x "float64" end.
Definition assert_int (x : GoValue) (k : Z -> result) : result :=
  match x with GoInt z => k z | _ => conv_panic x "int" end.
Definition assert_int64 (x : GoValue) (k : Z -> result) : result :=
  match x with GoInt64 z => k z | _ => conv_panic x "int64" end.
Definition assert_string (x : GoValue) (k : string -> result) : result :=
  match x with GoString s => k s | _ => conv_panic x "string" end.

(** [v.Regex.Regexp.MatchString(s)]: a nil [*Regexp] is dereferenced. *)
Definition regex_match (r : RegexVal) (s : string) (k : bool -> result) : result :=
  match Regexp r with
  | Some re => k (MatchString re s)
  | None => Panic "runtime error: invalid memory address or nil pointer dereference"
  end.

(** The fall-through at the end of [Predicate.Eval]. *)
Definition failed_comparison (x : GoValue) : result := Err (ErrFailedComparison x).

(** [switch x := ctxVal.(type)] on the numeric kinds
    [case int, int8, int16, int32, int64, uint, uint8, uint16, uint32, uint64]. *)
Definition is_integer_kind (x : GoValue) : bool :=
  match x with
  | GoInt _ | GoInt8 _ | GoInt16 _ | GoInt32 _ | GoInt64 _
  | GoUint _ | GoUint8 _ | GoUint16 _ | GoUint32 _ | GoUint64 _ => true
  | _ => false
  end.

(** [case "="] of [Predicate.Eval] (part_002, lines 134-171). In a
    multi-type [case], [x] keeps type [interface{}], so [x.(float64)] and
    [x.(int)] are type assertions. *)
Definition eval_eq (ctxVal : GoValue) (v : Value) : result :=
  match v with
  | VFloat f =>
      match ctxVal with
      | GoFloat32 _ | GoFloat64 _ =>
          assert_float64 ctxVal (fun x => Ok (PrimFloat.eqb x f))
      | GoString x => Ok (String.eqb x (Sprintf_f f))
      | GoBool x =>
          Ok (x && negb (PrimFloat.eqb f PrimFloat.zero)
              || negb x && PrimFloat.eqb f PrimFloat.zero)
      | _ =>
          if is_integer_kind ctxVal
          then assert_int ctxVal (fun x => Ok (PrimFloat.eqb (float64_of_int64 x) f))
          else failed_comparison ctxVal
      end
  | VString s =>
      (* [ctxVal == *v.String]: interface comparison, equal iff the
         dynamic type is string and the bytes are equal *)
      Ok (match ctxVal with GoString x => String.eqb x s | _ => false end)
  | VRegex r =>
      match ctxVal with
      | GoString strVal => regex_match r strVal Ok
      | _ => Err (ErrRegexNonString ctxVal)
      end
  | VBoolean b =>
      match ctxVal with
      | GoInt x => Ok (Z.eqb x 0 && negb b || negb (Z.eqb x 0) && b)
      | GoBool x => Ok (Bool.eqb x b)
      | GoString x =>
          match ParseBool x with
          | None => Err (ErrNotBoolValue x)
          | Some b' => Ok (Bool.eqb b' b)
          end
      | _ => failed_comparison ctxVal
      end
  | VNull => Err (ErrUnknownValueType v)
  end.

(** [case "<>", "!="] (lines 172-209). *)
Definition eval_ne (ctxVal : GoValue) (v : Value) : result :=
  match v with
  | VFloat f =>
      match ctxVal with
      | GoFloat32 _ | GoFloat64 _ =>
          assert_float64 ctxVal (fun x => Ok (negb (PrimFloat.eqb x f)))
      | GoString x => Ok (negb (String.eqb x (Sprintf_f f)))
      | GoBool x =>
          Ok (negb (x && negb (PrimFloat.eqb f PrimFloat.zero)
                    || negb x && PrimFloat.eqb f PrimFloat.zero))
      | _ =>
          if is_integer_kind ctxVal
          then assert_int ctxVal (fun x => Ok (negb (PrimFloat.eqb (float64_of_int64 x) f)))
          else failed_comparison ctxVal
      end
  | VString s =>
      Ok (negb (match ctxVal with GoString x => String.eqb x s | _ => false end))
  | VRegex r =>
      match ctxVal with
      | GoString strVal => regex_match r strVal (fun m => Ok (negb m))
      | _ => Err (ErrRegexNonString ctxVal)
      end
  | VBoolean b =>
      match ctxVal with
      | GoInt x => Ok (negb (Z.eqb x 0 && negb b || negb (Z.eqb x 0) && b))
      | GoBool x => Ok (negb (Bool.eqb x b))
      | GoString x =>
          match ParseBool x with
          | None => Err (ErrNotBoolValue x)
          | Some b' => Ok (negb (Bool.eqb b' b))
          end
      | _ => failed_comparison ctxVal
      end
  | VNull => Err (ErrUnknownValueType v)
  end.

(** The four ordering cases [">"], [">="], ["<"], ["<="] (lines 211-309)
    are the same code up to the operator: [fcmp x f] is [x OP f] on
    float64, [scmp x s] is [x OP s] on strings. *)
Definition eval_ord (op : string) (fcmp : float -> float -> bool)
    (scmp : string -> string -> bool) (ctxVal : GoValue) (v : Value) : result :=
  match v with
  | VFloat f =>
      match ctxVal with
      | GoFloat32 _ | GoFloat64 _ =>
          assert_float64 ctxVal (fun x => Ok (fcmp x f))
      | GoString x => Ok (scmp x (Sprintf_f f))
      | GoBool _ => Err (ErrBooleanOrder v)
      | _ =>
          if is_integer_kind ctxVal
          then assert_int64 ctxVal (fun i => Ok (fcmp (float64_of_int64 i) f))
          else failed_comparison ctxVal
      end
  | VString s => assert_string ctxVal (fun x => Ok (scmp x s))
  | VRegex _ => Err (ErrRegexOrder op)
  | VBoolean _ => Err (ErrBooleanOrder v)
  | VNull => Err (ErrUnknownValueType v)
  end.

(** [func (p *Predicate) Eval(ctx Context) (bool, error)]. The parser
    always sets [p] and [p.Compare], so the [nil] guard is not modelled. *)
Definition Predicate_Eval (ctx : Context) (p : Predicate) : result :=
  match ctx !! Symbol p with
  | None => Ok false
  | Some ctxVal =>
      let o := Operator (PCompare p) in
      let v := CValue (PCompare p) in
      if String.eqb o "=" then eval_eq ctxVal v
      else if String.eqb o "<>" || String.eqb o "!=" then eval_ne ctxVal v
      else if String.eqb o ">" then
        eval_ord ">" (fun x f => PrimFloat.ltb f x) (fun x s => string_lt s x) ctxVal v
      else if String.eqb o ">=" then
        eval_ord ">=" (fun x f => PrimFloat.leb f x) (fun x s => string_le s x) ctxVal v
      else if String.eqb o "<" then
        eval_ord "<" (fun x f => PrimFloat.ltb x f) (fun x s => string_lt x s) ctxVal v
      else if String.eqb o "<=" then
        eval_ord "<=" (fun x f => PrimFloat.leb x f) (fun x s => string_le x s) ctxVal v
      else Err (ErrUnknownOperator o)
  end.

(** [Expression.Eval], [OrCondition.Eval], [Condition.Eval]. The [range]
    loops are the inner [fix]es; the [len(...) == 0] guards come first. *)
Fixpoint Expression_Eval (ctx : Context) (e : Expression) : result :=
  match e with
  | mkExpression ors =>
      (fix loop (l : list OrCondition) : result :=
         match l with
         | [] => Ok false
         | x :: rest =>
             match OrCondition_Eval ctx x with
             | Err err => Err (ErrEvaluatingOr err)
             | Panic m => Panic m
             | Ok true => Ok true
             | Ok false => loop rest
             end
         end) ors
  end
with OrCondition_Eval (ctx : Context) (o : OrCondition) : result :=
  match o with
  | mkOrCondition [] => Ok false
  | mkOrCondition ands =>
      (fix loop (l : list Condition) : result :=
         match l with
         | [] => Ok true
         | x :: rest =>
             match Condition_Eval ctx x with
             | Err err => Err (ErrEvaluatingAnd err)
             | Panic m => Panic m
             | Ok false => Ok false
             | Ok true => loop rest
             end
         end) ands
  end
with Condition_Eval (ctx : Context) (c : Condition) : result :=
  match c with
  | Nested e => Expression_Eval ctx e
  | CPredicate p => Predicate_Eval ctx p
  end.

(** The two [range] loops of [Expression.Eval] and [OrCondition.Eval],
    named: they are the inner [fix]es above (see [Expression_Eval_loop]
    and [OrCondition_Eval_loop]). *)
Fixpoint or_loop (ctx : Context) (l : list OrCondition) : result :=
  match l with
  | [] => Ok false
  | x :: rest =>
      match OrCondition_Eval ctx x with
      | Err err => Err (ErrEvaluatingOr err)
      | Panic m => Panic m
      | Ok true => Ok true
      | Ok false => or_loop ctx rest
      end
  end.

Fixpoint and_loop (ctx : Context) (l : list Condition) : result :=
  match l with
  | [] => Ok true
  | x :: rest =>
      match Condition_Eval ctx x with
      | Err err => Err (ErrEvaluatingAnd err)
      | Panic m => Panic m
      | Ok false => Ok false
      | Ok true => and_loop ctx rest
      end
  end.

(** ** The matcher facade (part_000) *)

(** [type Matcher struct { Parser; Expression Expression; Debug bool }]:
    the parser is only used by [NewMatcher]; [Debug] only prints. *)
Record Matcher : Type := mkMatcher {
  MExpression : Expression;
  Debug : bool
}.

(** [func (m Matcher) Test(c *Context) (bool, error)]; [None] is a nil
    [*Context]. The debug dump is output only. *)
Definition Test (m : Matcher) (c : option Context) : result :=
  match c with
  | None => Err ErrNilContext
  | Some ctx => Expression_Eval ctx (MExpression m)
  end.

(** A [context.Context] as seen by one [select] on [ctx.Done()]: not yet
    done, cancelled, or past its deadline ([ctx.Err()] is [Canceled] or
    [DeadlineExceeded] once [Done()] is closed). *)
Inductive GoCtxState : Type := CtxActive | CtxCanceled | CtxDeadlineExceeded.

(** [func (m Matcher) TestWithContext(ctx context.Context, c *Context)];
    [None] is a nil [context.Context]. *)
Definition TestWithContext (m : Matcher) (ctx : option GoCtxState) (c : option Context) : result :=
  match ctx with
  | None => Err ErrNilGoContext
  | Some CtxCanceled => Err ErrCanceled
  | Some CtxDeadlineExceeded => Err ErrDeadlineExceeded
  | Some CtxActive => Test m c
  end.

(** ** Regex literal capture (part_002, lines 346-412) *)

(** [regexp.Compile]: a compiled regexp, or the error message. *)
Variable regexp_Compile : string -> regexp + string.

Definition MaxRegexPatternLength : nat := 1000.
Definition MaxRegexComplexity : nat := 20.

(** [strings.ReplaceAll(pattern, "\\/", "/")]: every backslash-slash pair,
    scanned left to right without overlap, becomes a slash. *)
Fixpoint ReplaceAll_escaped_slash (s : string) : string :=
  match s with
  | EmptyString => EmptyString
  | String c tl =>
      match tl with
      | EmptyString => String c EmptyString
      | String d rest =>
          if (Ascii.eqb c "\" && Ascii.eqb d "/")%bool
          then String "/" (ReplaceAll_escaped_slash rest)
          else String c (ReplaceAll_escaped_slash tl)
      end
  end.

(** [strings.Count(s, c)] for a one-byte [c]. *)
Fixpoint Count (s : string) (c : ascii) : nat :=
  match s with
  | EmptyString => 0
  | String d rest => (if Ascii.eqb d c then 1 else 0) + Count rest c
  end.

(** [pattern[1 : len(pattern)-1]], then the unescaping. *)
Definition regex_body (literal : string) : string :=
  ReplaceAll_escaped_slash (substring 1 (String.length literal - 2) literal).

(** The complexity score of lines 372-374. *)
Definition complexity (pattern : string) : nat :=
  Count pattern "*" + Count pattern "+" + Count pattern "{"
  + Count pattern "?" + Count pattern "|".

(** [func (r *RegexVal) Capture(values []string) error]: the new state of
    [*r] and the returned error. The compilation runs on a goroutine raced
    against a 100ms [context.WithTimeout]; [in_time] says which case the
    [select] takes: [true] when the compilation result arrives first. *)
Definition RegexVal_Capture (r : RegexVal) (values : list string) (in_time : bool)
    : RegexVal * option error :=
  match values with
  | [] => (r, Some ErrNoRegexPattern)
  | literal :: _ =>
      if Nat.ltb (String.length literal) 3 then (r, Some (ErrInvalidRegexLiteral literal))
      else
        let pattern := regex_body literal in
        if Nat.ltb MaxRegexPatternLength (String.length pattern)
        then (r, Some (ErrRegexTooLong (String.length pattern)))
        else
          let c := complexity pattern in
          if Nat.ltb MaxRegexComplexity c then (r, Some (ErrRegexTooComplex c))
          else
            let r := mkRegexVal pattern (Regexp r) in
            if in_time then
              match regexp_Compile pattern with
              | inr msg => (r, Some (ErrRegexCompile msg))
              | inl re => (mkRegexVal pattern (Some re), None)
              end
            else (r, Some ErrRegexTimeout)
  end.

End Matcher.

Arguments RegexVal : clear implicits.
Arguments Value : clear implicits.
Arguments Compare : clear implicits.
Arguments Predicate : clear implicits.
Arguments Expression : clear implicits.
Arguments OrCondition : clear implicits.
Arguments Condition : clear implicits.
Arguments error : clear implicits.
Arguments result : clear implicits.
Arguments Matcher : clear implicits.

(** ** The lexer of [NewParser] (part_002, lines 416-424)

    [lexer.MustSimple] tries its rules in order at the current position;
    the first rule whose pattern, anchored there, matches gives the token
    (Go's [regexp] picks the leftmost-first match of each pattern, with
    greedy repetition). Each [match_*] below returns the matched text and
    the remaining input for one rule, or [None]. *)

Inductive Rule : Type :=
| RKeyword | RIdent | RFloat | RString | RRegex | ROperators | Rwhitespace.

Definition is_digit (c : ascii) : bool :=
  let n := nat_of_ascii c in Nat.leb 48 n && Nat.leb n 57.
Definition is_alpha (c : ascii) : bool :=
  let n := nat_of_ascii c in
  (Nat.leb 65 n && Nat.leb n 90) || (Nat.leb 97 n && Nat.leb n 122).
Definition is_ident_start (c : ascii) : bool := is_alpha c || Ascii.eqb c "_".
Definition is_ident_char (c : ascii) : bool := is_ident_start c || is_digit c.
(** Go's [\s]: [[\t\n\f\r ]]. *)
Definition is_space (c : ascii) : bool :=
  existsb (Ascii.eqb c) ["009"; "010"; "012"; "013"; " "]%char.
Definition is_sign (c : ascii) : bool := Ascii.eqb c "-" || Ascii.eqb c "+".
(** ASCII upper case, for [(?i)]. *)
Definition upper (c : ascii) : ascii :=
  let n := nat_of_ascii c in
  if Nat.leb 97 n && Nat.leb n 122 then ascii_of_nat (n - 32) else c.
Definition nonempty (s : string) : bool :=
  match s with EmptyString => false | _ => true end.

(** [p*], greedy: the longest prefix of characters satisfying [p]. *)
Fixpoint span_while (p : ascii -> bool) (s : string) : string * string :=
  match s with
  | EmptyString => (EmptyString, EmptyString)
  | String c r =>
      if p c then let '(a, b) := span_while p r in (String c a, b)
      else (EmptyString, s)
  end.

(** [[-+]?], greedy. *)
Definition split_sign (s : string) : string * string :=
  match s with
  | String c r => if is_sign c then (String c EmptyString, r) else (EmptyString, s)
  | EmptyString => (EmptyString, EmptyString)
  end.

(** The upper-case literal [k] as a case-insensitive prefix of [s]. Go's
    [(?i)] folds each letter with its other ASCII case and, for [S], also
    with U+017F (long s, bytes C5 BF in UTF-8); no other letter of the
    keywords has a non-ASCII fold. *)
Fixpoint prefix_ci (k s : string) : option (string * string) :=
  match k, s with
  | EmptyString, _ => Some (EmptyString, s)
  | String kc kr, String c r =>
      if Ascii.eqb (upper c) kc then
        match prefix_ci kr r with
        | Some (a, b) => Some (String c a, b)
        | None => None
        end
      else if Ascii.eqb kc "S" && Ascii.eqb c "197" then
        match r with
        | String c2 r2 =>
            if Ascii.eqb c2 "191" then
              match prefix_ci kr r2 with
              | Some (a, b) => Some (String c (String c2 a), b)
              | None => None
              end
            else None
        | EmptyString => None
        end
      else None
  | String _ _, EmptyString => None
  end.

Definition keywords : list string := ["TRUE"; "FALSE"; "AND"; "OR"; "NULL"].

(** [(?i)TRUE|FALSE|AND|OR|NULL]: the first alternative that matches. *)
Definition match_Keyword (s : string) : option (string * string) :=
  (fix first (ks : list string) : option (string * string) :=
     match ks with
     | [] => None
     | k :: ks' => match prefix_ci k s with Some m => Some m | None => first ks' end
     end) keywords.

(** [[a-zA-Z_][a-zA-Z0-9_]*] *)
Definition match_Ident (s : string) : option (string * string) :=
  match s with
  | String c r =>
      if is_ident_start c then let '(a, b) := span_while is_ident_char r in Some (String c a, b)
      else None
  | EmptyString => None
  end.

(** [([eE][-+]?\d+)?] *)
Definition match_exponent (s : string) : string * string :=
  match s with
  | String e r =>
      if Ascii.eqb e "e" || Ascii.eqb e "E" then
        let '(sg, r1) := split_sign r in
        let '(d, r2) := span_while is_digit r1 in
        if nonempty d then (String e (sg ++ d), r2) else (EmptyString, s)
      else (EmptyString, s)
  | EmptyString => (EmptyString, EmptyString)
  end.

(** [[-+]?\d*\.?\d+([eE][-+]?\d+)?]. With backtracking, the mantissa is
    [d1.d2] when a digit follows the dot, and otherwise the digit run [d1]
    (the last digit of [\d*] is given back to [\d+]). *)
Definition match_Float (s : string) : option (string * string) :=
  let '(sg, s1) := split_sign s in
  let '(d1, s2) := span_while is_digit s1 in
  let mant :=
    match s2 with
    | String c r =>
        if Ascii.eqb c "." then
          let '(d2, s3) := span_while is_digit r in
          if nonempty d2 then Some (d1 ++ String c d2, s3)
          else if nonempty d1 then Some (d1, s2) else None
        else if nonempty d1 then Some (d1, s2) else None
    | EmptyString => if nonempty d1 then Some (d1, s2) else None
    end in
  match mant with
  | None => None
  | Some (m, s3) => let '(ex, s4) := match_exponent s3 in Some (sg ++ m ++ ex, s4)
  end.

(** [[^q]*q] after an opening [q]. *)
Fixpoint upto (q : ascii) (s : string) : option (string * string) :=
  match s with
  | EmptyString => None
  | String c r =>
      if Ascii.eqb c q then Some (String c EmptyString, r)
      else match upto q r with Some (a, b) => Some (String c a, b) | None => None end
  end.

(** A single-quoted or a double-quoted literal, without escapes
    ([String] rule; ["034"] is the double quote). *)
Definition match_String (s : string) : option (string * string) :=
  match s with
  | String c r =>
      if Ascii.eqb c "'" || Ascii.eqb c "034" then
        match upto c r with Some (a, b) => Some (String c a, b) | None => None end
      else None
  | EmptyString => None
  end.

(** The body of the [Regex] rule after its opening slash: runs of
    characters other than slash and backslash, and backslash escapes of any
    character but a newline, up to the first slash not taken by an escape. *)
Fixpoint scan_regex (s : string) : option (string * string) :=
  match s with
  | EmptyString => None
  | String c tl =>
      if Ascii.eqb c "/" then Some (String c EmptyString, tl)
      else if Ascii.eqb c "\" then
        match tl with
        | EmptyString => None
        | String d r =>
            if Ascii.eqb d "010" then None
            else match scan_regex r with
                 | Some (a, b) => Some (String c (String d a), b)
                 | None => None
                 end
        end
      else match scan_regex tl with Some (a, b) => Some (String c a, b) | None => None end
  end.

(** The [Regex] rule: a slash, then [scan_regex]. *)
Definition match_Regex (s : string) : option (string * string) :=
  match s with
  | String c r =>
      if Ascii.eqb c "/" then
        match scan_regex r with Some (a, b) => Some (String c a, b) | None => None end
      else None
  | EmptyString => None
  end.

Definition is_operator_char (c : ascii) : bool :=
  existsb (Ascii.eqb c) (list_ascii_of_string "-+*/%,.()=<>").
Definition is_two_char_operator (c d : ascii) : bool :=
  (Ascii.eqb c "<" && Ascii.eqb d ">") || (Ascii.eqb c "!" && Ascii.eqb d "=")
  || (Ascii.eqb c "<" && Ascii.eqb d "=") || (Ascii.eqb c ">" && Ascii.eqb d "=").

(** [<>|!=|<=|>=|[-+*/%,.()=<>]] *)
Definition match_Operators (s : string) : option (string * string) :=
  match s with
  | String c (String d r) =>
      if is_two_char_operator c d then Some (String c (String d EmptyString), r)
      else if is_operator_char c then Some (String c EmptyString, String d r)
      else None
  | String c EmptyString =>
      if is_operator_char c then Some (String c EmptyString, EmptyString) else None
  | EmptyString => None
  end.

(** [\s+] *)
Definition match_whitespace (s : string) : option (string * string) :=
  match s with
  | String c r =>
      if is_space c then let '(a, b) := span_while is_space r in Some (String c a, b)
      else None
  | EmptyString => None
  end.

(** The rules of [NewParser], in their order. *)
Definition lexer_rules : list (Rule * (string -> option (string * string))) :=
  [(RKeyword, match_Keyword); (RIdent, match_Ident); (RFloat, match_Float);
   (RString, match_String); (RRegex, match_Regex); (ROperators, match_Operators);
   (Rwhitespace, match_whitespace)].

(** One step of the lexer: the first rule that matches at the start of
    [s], with its text and the remaining input. [None] is the lexer's
    "invalid input text" error. *)
Definition next_token (s : string) : option (Rule * string * string) :=
  (fix first (rs : list (Rule * (string -> option (string * string)))) :=
     match rs with
     | [] => None
     | (r, m) :: rs' =>
         match m s with Some (a, b) => Some (r, a, b) | None => first rs' end
     end) lexer_rules.

Inductive LexResult : Type :=
| LexOk (toks : list (Rule * string))
| LexError (rest : string).

(** The whole token stream, whitespace tokens included. Every token is
    non-empty, so [String.length s] steps suffice (see
    [tokenize_error_location]). *)
Fixpoint tokenize_fuel (fuel : nat) (s : string) : LexResult :=
  match s with
  | EmptyString => LexOk []
  | String _ _ =>
      match fuel with
      | 0 => LexError s
      | S fuel' =>
          match next_token s with
          | None => LexError s
          | Some (r, a, b) =>
              match tokenize_fuel fuel' b with
              | LexOk ts => LexOk ((r, a) :: ts)
              | LexError e => LexError e
              end
          end
      end
  end.

Definition tokenize (s : string) : LexResult := tokenize_fuel (String.length s) s.

(** ** Helpers for stating properties *)

Section Symbols.
Context {regexp : Type}.

(** The field names an expression mentions, in its predicates. *)
Fixpoint expr_symbols (e : Expression regexp) : list string :=
  match e with
  | mkExpression ors =>
      (fix go (l : list (OrCondition regexp)) : list string :=
         match l with [] => [] | o :: l' => app (or_symbols o) (go l') end) ors
  end
with or_symbols (o : OrCondition regexp) : list string :=
  match o with
  | mkOrCondition ands =>
      (fix go (l : list (Condition regexp)) : list string :=
         match l with [] => [] | c :: l' => app (cond_symbols c) (go l') end) ands
  end
with cond_symbols (c : Condition regexp) : list string :=
  match c with
  | Nested e => expr_symbols e
  | CPredicate p => [Symbol p]
  end.

End Symbols.

(** How a query writer puts a pattern between slashes: each slash of the
    pattern written as backslash-slash. *)
Fixpoint escape_slash (s : string) : string :=
  match s with
  | EmptyString => EmptyString
  | String c r =>
      if Ascii.eqb c "/" then String "\" (String "/" (escape_slash r))
      else String c (escape_slash r)
  end.

(** ASCII lower case of an upper-case letter. *)
Definition lower (c : ascii) : ascii :=
  let n := nat_of_ascii c in
  if Nat.leb 65 n && Nat.leb n 90 then ascii_of_nat (n + 32) else c.

(** Every spelling of an upper-case word with each letter in either case. *)
Fixpoint case_variants (k : string) : list string :=
  match k with
  | EmptyString => [EmptyString]
  | String c r =>
      let vs := case_variants r in app (map (String c) vs) (map (String (lower c)) vs)
  end.

(** A numeric comparison [x OP f] of float64 values, by operator. *)
Definition float_compare (op : string) (x f : float) : bool :=
  if String.eqb op "=" then PrimFloat.eqb x f
  else if String.eqb op "<>" || String.eqb op "!=" then negb (PrimFloat.eqb x f)
  else if String.eqb op ">" then PrimFloat.ltb f x
  else if String.eqb op ">=" then PrimFloat.leb f x
  else if String.eqb op "<" then PrimFloat.ltb x f
  else if String.eqb op "<=" then PrimFloat.leb x f
  else false.

(** The same result with a boolean negated; errors and panics unchanged. *)
Definition negate_result {regexp : Type} (r : result regexp) : result regexp :=
  match r with Ok b => Ok (negb b) | _ => r end.

(** ** Concrete instances used by the witnesses *)

(** A regex engine on [unit] that matches nothing, and some [%f] printer. *)
Definition match_none (_ : unit) (_ : string) : bool := false.
Definition sprintf_blank (_ : float) : string := EmptyString.

(** The predicate [sym op v]. *)
Definition pred {regexp : Type} (sym op : string) (v : Value regexp) : Predicate regexp :=
  mkPredicate sym (mkCompare op v).

Definition ordering_ops : list string := [">"; ">="; "<"; "<="].
Definition operators : list string := ["="; "<>"; "!="; ">"; ">="; "<"; "<="].

(** [{n: int(5)}], [{s: true}], [{name: "John"}]: records a Go caller
    builds by hand. *)
Definition record_n : Context := {[ "n" := GoInt 5 ]}.
Definition record_bool : Context := {[ "s" := GoBool true ]}.
Definition record_name : Context := {[ "name" := GoString "John" ]}.

(** A compiled regex on [unit]. *)
Definition regex_J : RegexVal unit := mkRegexVal "^J" (Some tt).
Definition compile_ok (_ : string) : unit + string := inl tt.

(** [a = 1 OR b = 2 OR a > "x"]: the last term panics if evaluated on
    [record_ab]. *)
Definition or_pre : list (OrCondition unit) := [mkOrCondition [CPredicate (pred "a" "=" (VFloat 1%float))]].
Definition or_hit : OrCondition unit := mkOrCondition [CPredicate (pred "b" "=" (VFloat 2%float))].
Definition or_post : list (OrCondition unit) := [mkOrCondition [CPredicate (pred "a" ">" (VString "x"))]].

(** A matcher for the empty expression. *)
Definition matcher_empty : Matcher unit := mkMatcher (mkExpression []) false.

(** [{a: 0, b: 2}] as decoded from JSON. *)
Definition record_ab : Context := {[ "a" := GoFloat64 0%float; "b" := GoFloat64 2%float ]}.

(** [{a: null}] and [{s: "yes"}] as decoded from JSON, and [record_ab]
    with one more field. *)
Definition record_null : Context := {[ "a" := GoNil ]}.
Definition record_str : Context := {[ "s" := GoString "yes" ]}.
Definition record_abz : Context := <[ "z" := GoBool true ]> record_ab.

(** [a > TRUE], an expression that fails on [record_ab], and [a = 1]. *)
Definition expr_bad : Expression unit := mkExpression [mkOrCondition [CPredicate (pred "a" ">" (VBoolean true))]].
Definition expr_a : Expression unit := mkExpression or_pre.

(** The complexity score as the specification describes it, counting the
    closing brace as well, and a literal of eleven bounded repetitions
    [a{1}]. *)
Definition complexity_as_claimed (pattern : string) : nat :=
  Count pattern "*" + Count pattern "+" + Count pattern "{" + Count pattern "}"
  + Count pattern "?" + Count pattern "|".
Definition literal_braces : string :=
  "/a{1}a{1}a{1}a{1}a{1}a{1}a{1}a{1}a{1}a{1}a{1}/".

(** ** Proofs *)

(** Operators of the grammar, as the [Predicate.Eval] dispatch sees them. *)
Ltac dispatch_op Hop :=
  repeat (destruct Hop as [<-|Hop]; [|]); try contradiction.


Section Proofs.
Context {regexp : Type}.
Variable MatchString : regexp -> string -> bool.
Variable Sprintf_f : float -> string.


Lemma Expression_Eval_loop (ctx : Context) (ors : list (OrCondition regexp)) :
  Expression_Eval MatchString Sprintf_f ctx (mkExpression ors) = or_loop MatchString Sprintf_f ctx ors.
Proof.
  induction ors as [|x rest IH]; [reflexivity|].
  simpl. rewrite <- IH. reflexivity.
Qed.

Lemma OrCondition_Eval_loop (ctx : Context) (c : Condition regexp) (rest : list (Condition regexp)) :
  OrCondition_Eval MatchString Sprintf_f ctx (mkOrCondition (c :: rest)) = and_loop MatchString Sprintf_f ctx (c :: rest).
Proof.
  revert c. induction rest as [|c' rest IH]; intros c; [reflexivity|].
  change (OrCondition_Eval MatchString Sprintf_f ctx (mkOrCondition (c :: c' :: rest))) with
    (match Condition_Eval MatchString Sprintf_f ctx c with
     | Err err => Err (ErrEvaluatingAnd err)
     | Panic m => Panic m
     | Ok false => Ok false
     | Ok true => OrCondition_Eval MatchString Sprintf_f ctx (mkOrCondition (c' :: rest))
     end).
  rewrite IH. reflexivity.
Qed.

Lemma or_loop_skip (ctx : Context) (pre post : list (OrCondition regexp)) :
  Forall (fun x => OrCondition_Eval MatchString Sprintf_f ctx x = Ok false) pre -> or_loop MatchString Sprintf_f ctx (pre ++ post) = or_loop MatchString Sprintf_f ctx post.
Proof.
  induction 1 as [|x pre Hx _ IH]; [reflexivity|].
  simpl. rewrite Hx. exact IH.
Qed.

Lemma and_loop_skip (ctx : Context) (pre post : list (Condition regexp)) :
  Forall (fun x => Condition_Eval MatchString Sprintf_f ctx x = Ok true) pre -> and_loop MatchString Sprintf_f ctx (pre ++ post) = and_loop MatchString Sprintf_f ctx post.
Proof.
  induction 1 as [|x pre Hx _ IH]; [reflexivity|].
  simpl. rewrite Hx. exact IH.
Qed.

Lemma and_loop_true (ctx : Context) (l : list (Condition regexp)) :
  and_loop MatchString Sprintf_f ctx l = Ok true <-> Forall (fun x => Condition_Eval MatchString Sprintf_f ctx x = Ok true) l.
Proof.
  induction l as [|x rest IH]; simpl.
  - split; auto.
  - rewrite Forall_cons_iff, <- IH.
    destruct (Condition_Eval MatchString Sprintf_f ctx x) as [[|]|e|m]; split; intros H;
      try discriminate; try tauto; destruct H; discriminate.
Qed.

(** C1: [Expression.Eval] is a left-to-right, short-circuiting,
    fail-fast OR over its [OrCondition]s (the first [true] gives [(true, nil)]
    whatever follows, all [false] gives [(false, nil)], the first error is
    returned, wrapped, whatever follows); [OrCondition.Eval] is the
    corresponding AND (first [false] gives [(false, nil)], first error is
    returned, and [(true, nil)] comes exactly when the list is non-empty
    and every condition is [true]). *)
Theorem C1_or_and_short_circuit (ctx : Context) :
  (forall pre o post,
     Forall (fun x => OrCondition_Eval MatchString Sprintf_f ctx x = Ok false) pre -> OrCondition_Eval MatchString Sprintf_f ctx o = Ok true ->
     Expression_Eval MatchString Sprintf_f ctx (mkExpression (pre ++ o :: post)) = Ok true) /\
  (forall pre o post err,
     Forall (fun x => OrCondition_Eval MatchString Sprintf_f ctx x = Ok false) pre -> OrCondition_Eval MatchString Sprintf_f ctx o = Err err ->
     Expression_Eval MatchString Sprintf_f ctx (mkExpression (pre ++ o :: post)) = Err (ErrEvaluatingOr err)) /\
  (forall ors,
     Forall (fun x => OrCondition_Eval MatchString Sprintf_f ctx x = Ok false) ors -> Expression_Eval MatchString Sprintf_f ctx (mkExpression ors) = Ok false) /\
  (forall pre c post,
     Forall (fun x => Condition_Eval MatchString Sprintf_f ctx x = Ok true) pre -> Condition_Eval MatchString Sprintf_f ctx c = Ok false ->
     OrCondition_Eval MatchString Sprintf_f ctx (mkOrCondition (pre ++ c :: post)) = Ok false) /\
  (forall pre c post err,
     Forall (fun x => Condition_Eval MatchString Sprintf_f ctx x = Ok true) pre -> Condition_Eval MatchString Sprintf_f ctx c = Err err ->
     OrCondition_Eval MatchString Sprintf_f ctx (mkOrCondition (pre ++ c :: post)) = Err (ErrEvaluatingAnd err)) /\
  (forall ands,
     OrCondition_Eval MatchString Sprintf_f ctx (mkOrCondition ands) = Ok true <->
     ands <> [] /\ Forall (fun x => Condition_Eval MatchString Sprintf_f ctx x = Ok true) ands).
Proof.
  split; [|split; [|split; [|split; [|split]]]].
  - intros pre o post Hpre Ho.
    rewrite Expression_Eval_loop, or_loop_skip by exact Hpre. simpl. now rewrite Ho.
  - intros pre o post err Hpre Ho.
    rewrite Expression_Eval_loop, or_loop_skip by exact Hpre. simpl. now rewrite Ho.
  - intros ors H. rewrite Expression_Eval_loop.
    rewrite <- (app_nil_r ors), or_loop_skip by exact H. reflexivity.
  - intros pre c post Hpre Hc.
    destruct pre as [|c0 pre].
    + rewrite app_nil_l, OrCondition_Eval_loop. simpl. now rewrite Hc.
    + rewrite <- app_comm_cons, OrCondition_Eval_loop, app_comm_cons.
      rewrite (and_loop_skip _ (c0 :: pre)) by exact Hpre. simpl. now rewrite Hc.
  - intros pre c post err Hpre Hc.
    destruct pre as [|c0 pre].
    + rewrite app_nil_l, OrCondition_Eval_loop. simpl. now rewrite Hc.
    + rewrite <- app_comm_cons, OrCondition_Eval_loop, app_comm_cons.
      rewrite (and_loop_skip _ (c0 :: pre)) by exact Hpre. simpl. now rewrite Hc.
  - intros [|c rest].
    + simpl. split; [discriminate|]. intros [H _]. now contradiction H.
    + rewrite OrCondition_Eval_loop, and_loop_true. split; [|tauto].
      intros H. split; [discriminate|exact H].
Qed.

(** C3: a predicate whose field is absent from the record evaluates to
    [(false, nil)], whatever its operator and value. *)
Theorem C3_missing_field_is_false (ctx : Context) (p : Predicate regexp) :
  ctx !! Symbol p = None -> Predicate_Eval MatchString Sprintf_f ctx p = Ok false.
Proof. intros H. unfold Predicate_Eval. now rewrite H. Qed.

(** C4: a regex value (with its compiled matcher) against a present field:
    [=] on a string field is [(MatchString re s, nil)]; [<>] and [!=] on a
    string field are its negation; [=], [<>], [!=] on any other kind are the
    "cannot apply regex to non-string value" error; every ordering operator
    is the "cannot use OP operator with regex pattern" error. *)
Theorem C4_regex_predicate (ctx : Context) (sym : string) (r : RegexVal regexp)
    (re : regexp) (x : GoValue) :
  Regexp r = Some re -> ctx !! sym = Some x ->
  (forall s, x = GoString s -> Predicate_Eval MatchString Sprintf_f ctx (pred sym "=" (VRegex r)) = Ok (MatchString re s)) /\
  (forall s op, op = "<>" \/ op = "!=" -> x = GoString s ->
     Predicate_Eval MatchString Sprintf_f ctx (pred sym op (VRegex r)) = Ok (negb (MatchString re s))) /\
  ((forall s, x <> GoString s) -> forall op, op = "=" \/ op = "<>" \/ op = "!=" ->
     Predicate_Eval MatchString Sprintf_f ctx (pred sym op (VRegex r)) = Err (ErrRegexNonString x)) /\
  (forall op, In op ordering_ops -> Predicate_Eval MatchString Sprintf_f ctx (pred sym op (VRegex r)) = Err (ErrRegexOrder op)).
Proof.
  intros Hre Hx. unfold Predicate_Eval, pred; simpl; rewrite Hx.
  split; [|split; [|split]].
  - intros s ->. simpl. unfold regex_match. now rewrite Hre.
  - intros s op Hop ->. destruct Hop as [->| ->]; simpl; unfold regex_match; now rewrite Hre.
  - intros Hns op Hop.
    assert (Hsw : forall (k : string -> result regexp),
              match x with GoString strVal => k strVal | _ => Err (ErrRegexNonString x) end
              = Err (ErrRegexNonString x)).
    { intros k. destruct x; try reflexivity. exfalso. now apply (Hns s). }
    destruct Hop as [->|[->| ->]]; simpl; apply Hsw.
  - intros op Hop. unfold ordering_ops in Hop. dispatch_op Hop; reflexivity.
Qed.

Lemma substring_length (n m : nat) (s : string) :
  String.length (substring n m s) <= m.
Proof.
  revert n m. induction s as [|c s IH]; intros n m; destruct n as [|n], m as [|m];
    simpl; try lia.
  - specialize (IH 0 m). lia.
  - apply (IH n 0).
  - apply (IH n (S m)).
Qed.

Lemma ReplaceAll_escaped_slash_length (s : string) :
  String.length (ReplaceAll_escaped_slash s) <= String.length s.
Proof.
  remember (String.length s) as n eqn:Hn. revert s Hn.
  induction n as [n IH] using lt_wf_ind. intros s Hn.
  destruct s as [|c [|d rest]]; simpl in *; try lia.
  destruct (Ascii.eqb c "\" && Ascii.eqb d "/")%bool; simpl.
  - specialize (IH (String.length rest) ltac:(lia) rest eq_refl). lia.
  - specialize (IH (S (String.length rest)) ltac:(lia) (String d rest) eq_refl).
    simpl in IH. lia.
Qed.

Lemma regex_body_length (literal : string) :
  String.length (regex_body literal) <= String.length literal - 2.
Proof.
  unfold regex_body.
  etransitivity; [apply ReplaceAll_escaped_slash_length|apply substring_length].
Qed.

Section CaptureProofs.
Variable regexp_Compile : string -> regexp + string.

(** C5: [RegexVal.Capture] rejects a literal whose unescaped body is longer
    than 1000 bytes (Go's [len]; a body of more than 1000 characters has
    more than 1000 bytes) or has a complexity score above 20, and fails when
    the compilation loses the race against the 100ms deadline; each failure
    is a descriptive error and leaves [Regexp] as it was (nil for the value
    the parser allocates). A successful capture stores the matcher that
    [regexp.Compile] returned for the stored pattern. The complexity score
    counts the characters star, plus, opening brace, question mark and
    vertical bar; a closing brace is not counted. *)
Theorem C5_regex_capture_limits (r : RegexVal regexp) (literal : string)
    (rest : list string) (in_time : bool) :
  (MaxRegexPatternLength < String.length (regex_body literal) ->
     snd (RegexVal_Capture regexp_Compile r (literal :: rest) in_time)
     = Some (ErrRegexTooLong (String.length (regex_body literal)))) /\
  (MaxRegexComplexity < complexity (regex_body literal) ->
     snd (RegexVal_Capture regexp_Compile r (literal :: rest) in_time)
     = Some (ErrRegexTooLong (String.length (regex_body literal)))
     \/ snd (RegexVal_Capture regexp_Compile r (literal :: rest) in_time)
        = Some (ErrRegexTooComplex (complexity (regex_body literal)))) /\
  (in_time = false -> exists e, snd (RegexVal_Capture regexp_Compile r (literal :: rest) in_time) = Some e) /\
  (forall vs t r', RegexVal_Capture regexp_Compile r vs t = (r', None) ->
     exists re, Regexp r' = Some re /\ regexp_Compile (Pattern r') = inl re) /\
  (forall vs t r' e, RegexVal_Capture regexp_Compile r vs t = (r', Some e) -> Regexp r' = Regexp r).
Proof.
  pose proof (regex_body_length literal) as Hlen.
  split; [|split; [|split; [|split]]].
  - intros Hlong. unfold RegexVal_Capture, MaxRegexPatternLength in *.
    destruct (Nat.ltb_spec (String.length literal) 3); [lia|].
    destruct (Nat.ltb_spec 1000 (String.length (regex_body literal))); [reflexivity|lia].
  - intros Hcx. unfold RegexVal_Capture, MaxRegexPatternLength, MaxRegexComplexity in *.
    destruct (Nat.ltb_spec (String.length literal) 3).
    + assert (String.length literal - 2 = 0) by lia.
      assert (Hz : String.length (regex_body literal) = 0) by lia.
      destruct (regex_body literal); [|discriminate Hz]. exfalso. revert Hcx. cbv. lia.
    + destruct (Nat.ltb_spec 1000 (String.length (regex_body literal))); [now left|].
      destruct (Nat.ltb_spec 20 (complexity (regex_body literal))); [now right|lia].
  - intros ->. unfold RegexVal_Capture.
    destruct (Nat.ltb (String.length literal) 3); [eauto|].
    destruct (Nat.ltb _ (String.length (regex_body literal))); [eauto|].
    destruct (Nat.ltb _ (complexity (regex_body literal))); eauto.
  - intros [|lit vs] t r' H; simpl in H; [discriminate|].
    destruct (Nat.ltb (String.length lit) 3); [discriminate|].
    destruct (Nat.ltb _ (String.length (regex_body lit))); [discriminate|].
    destruct (Nat.ltb _ (complexity (regex_body lit))); [discriminate|].
    destruct t; [|discriminate].
    destruct (regexp_Compile (regex_body lit)) as [re|msg] eqn:Hc; [|discriminate].
    injection H as <-. exists re. split; [reflexivity|exact Hc].
  - intros [|lit vs] t r' e H; simpl in H; [now injection H as <-|].
    destruct (Nat.ltb (String.length lit) 3); [now injection H as <-|].
    destruct (Nat.ltb _ (String.length (regex_body lit))); [now injection H as <-|].
    destruct (Nat.ltb _ (complexity (regex_body lit))); [now injection H as <-|].
    destruct t; [|now injection H as <-].
    destruct (regexp_Compile (regex_body lit)); [discriminate|now injection H as <-].
Qed.

End CaptureProofs.

(** C2 (as the code does it): a numeric literal against a numeric field of
    a kind other than [float64] (and other than [int] for [=], [<>], [!=];
    other than [int64] for the ordering operators) reaches a failed type
    assertion, a run-time panic, instead of a float comparison. *)
Theorem C2_numeric_kind_assertions (ctx : Context) (sym : string) (f : float) (x : GoValue) :
  ctx !! sym = Some x ->
  (forall g, x = GoFloat32 g -> forall op, In op operators ->
     Predicate_Eval MatchString Sprintf_f ctx (pred sym op (VFloat f)) = Panic "interface conversion: interface {} is float32, not float64") /\
  (is_integer_kind x = true -> (forall z, x <> GoInt z) -> forall op, In op ["="; "<>"; "!="] ->
     Predicate_Eval MatchString Sprintf_f ctx (pred sym op (VFloat f)) = conv_panic x "int") /\
  (is_integer_kind x = true -> (forall z, x <> GoInt64 z) -> forall op, In op ordering_ops ->
     Predicate_Eval MatchString Sprintf_f ctx (pred sym op (VFloat f)) = conv_panic x "int64").
Proof.
  intros Hx. unfold Predicate_Eval, pred; simpl; rewrite Hx.
  split; [|split].
  - intros g -> op Hop. unfold operators in Hop. dispatch_op Hop; reflexivity.
  - intros Hk Hn op Hop. dispatch_op Hop;
      (destruct x; try discriminate Hk; try (exfalso; now eapply Hn); reflexivity).
  - intros Hk Hn op Hop. unfold ordering_ops in Hop. dispatch_op Hop;
      (destruct x; try discriminate Hk; try (exfalso; now eapply Hn); reflexivity).
Qed.

(** C6 (as the code does it): a boolean literal against a [float64] field
    (every JSON number) is the "failed to complete comparison" error for
    [=], [<>] and [!=]: the boolean case only has [case int]. *)
Theorem C6_boolean_against_float64 (ctx : Context) (sym : string) (b : bool) (g : float) :
  ctx !! sym = Some (GoFloat64 g) ->
  forall op, In op ["="; "<>"; "!="] ->
  Predicate_Eval MatchString Sprintf_f ctx (pred sym op (VBoolean b)) = Err (ErrFailedComparison (GoFloat64 g)).
Proof.
  intros Hx op Hop. unfold Predicate_Eval, pred; simpl; rewrite Hx.
  dispatch_op Hop; reflexivity.
Qed.

(** C7 (as the code does it): a string literal with an ordering operator
    against a [bool] field reaches [ctxVal.(string)], a run-time panic,
    not an error return. *)
Theorem C7_string_order_on_bool_panics (ctx : Context) (sym s : string) (b : bool) :
  ctx !! sym = Some (GoBool b) ->
  forall op, In op ordering_ops ->
  Predicate_Eval MatchString Sprintf_f ctx (pred sym op (VString s))
  = Panic "interface conversion: interface {} is bool, not string".
Proof.
  intros Hx op Hop. unfold Predicate_Eval, pred; simpl; rewrite Hx.
  unfold ordering_ops in Hop. dispatch_op Hop; reflexivity.
Qed.

(** C8 (amended): for a [NULL] value and a present field, every operator
    of the grammar gives the "unknown value type" error: each operator's
    value switch reaches its [default] case, never the final "failed to
    complete comparison" return. *)
Theorem C8_null_value_unknown_type (ctx : Context) (sym op : string) (x : GoValue) :
  ctx !! sym = Some x -> In op operators ->
  Predicate_Eval MatchString Sprintf_f ctx (pred sym op VNull) = Err (ErrUnknownValueType VNull).
Proof.
  intros Hx Hop. unfold Predicate_Eval, pred; simpl; rewrite Hx.
  unfold operators in Hop. dispatch_op Hop; reflexivity.
Qed.

(** C9 (amended): [TestWithContext] looks at the context once: a nil
    [context.Context] gives the "nil context.Context provided" error, a
    cancelled or expired one gives [ctx.Err()], in both cases without
    evaluating; otherwise the result is exactly that of [Test]. *)
Theorem C9_test_with_context (m : Matcher regexp) (c : option Context) :
  TestWithContext MatchString Sprintf_f m None c = Err ErrNilGoContext /\
  TestWithContext MatchString Sprintf_f m (Some CtxCanceled) c = Err ErrCanceled /\
  TestWithContext MatchString Sprintf_f m (Some CtxDeadlineExceeded) c = Err ErrDeadlineExceeded /\
  TestWithContext MatchString Sprintf_f m (Some CtxActive) c = Test MatchString Sprintf_f m c.
Proof. repeat split. Qed.

(** C10: [Test] on a nil record pointer returns [(false, "nil context
    provided")] before any evaluation, for every matcher. *)
Theorem C10_test_nil_record (m : Matcher regexp) :
  Test MatchString Sprintf_f m None = Err ErrNilContext.
Proof. reflexivity. Qed.

End Proofs.

(** ** Further properties of the evaluator and the lexer *)

Section Extras.
Context {regexp : Type}.
Variable MatchString : regexp -> string -> bool.
Variable Sprintf_f : float -> string.

(** X1: on a field present in the record, [<>] and [!=] give the negation
    of [=] for every literal, and the same error or panic where [=] fails;
    on a missing field all three are false. *)
Theorem X1_ne_negates_eq (ctx : Context) (sym op : string) (v : Value regexp) :
  In op ["<>"; "!="] ->
  match ctx !! sym with
  | Some _ =>
      Predicate_Eval MatchString Sprintf_f ctx (pred sym op v)
      = negate_result (Predicate_Eval MatchString Sprintf_f ctx (pred sym "=" v))
  | None =>
      Predicate_Eval MatchString Sprintf_f ctx (pred sym op v) = Ok false /\
      Predicate_Eval MatchString Sprintf_f ctx (pred sym "=" v) = Ok false
  end.
Proof.
  intros Hop. unfold Predicate_Eval, pred; simpl.
  destruct (ctx !! sym) as [x|]; [|dispatch_op Hop; split; reflexivity].
  dispatch_op Hop; simpl; unfold eval_ne, eval_eq;
    destruct v as [f|s|r|b|]; destruct x; simpl; try reflexivity;
    try (unfold regex_match; destruct (Regexp r); reflexivity);
    try (destruct (ParseBool _); reflexivity).
Qed.

(** X2: a string literal compared with [=], [<>] or [!=] never errors or
    panics, whatever the field holds: [=] is true exactly when the field is
    that string, [<>] and [!=] exactly when the field is present and not
    that string. *)
Theorem X2_string_equality_total (ctx : Context) (sym s : string) :
  Predicate_Eval MatchString Sprintf_f ctx (pred sym "=" (VString s))
  = Ok (match ctx !! sym with Some (GoString y) => String.eqb y s | _ => false end) /\
  Predicate_Eval MatchString Sprintf_f ctx (pred sym "<>" (VString s))
  = Ok (match ctx !! sym with
        | Some (GoString y) => negb (String.eqb y s) | Some _ => true | None => false end) /\
  Predicate_Eval MatchString Sprintf_f ctx (pred sym "!=" (VString s))
  = Ok (match ctx !! sym with
        | Some (GoString y) => negb (String.eqb y s) | Some _ => true | None => false end).
Proof.
  unfold Predicate_Eval, pred; simpl.
  destruct (ctx !! sym) as [x|]; [destruct x|]; repeat split.
Qed.

(** X3: a numeric literal against a float64 field (every JSON number)
    succeeds for all seven operators and compares the two float64 values
    numerically. *)
Theorem X3_float64_field (ctx : Context) (sym op : string) (x f : float) :
  ctx !! sym = Some (GoFloat64 x) -> In op operators ->
  Predicate_Eval MatchString Sprintf_f ctx (pred sym op (VFloat f)) = Ok (float_compare op x f).
Proof.
  intros Hx Hop. unfold Predicate_Eval, pred; simpl. rewrite Hx.
  unfold operators in Hop. dispatch_op Hop; reflexivity.
Qed.

(** X4: on a field holding JSON null ([nil]): a numeric literal fails with
    the failed-comparison error for every operator, and so does a boolean
    literal with [=], [<>] or [!=]; a string literal is unequal to it
    ([=] false, [<>] and [!=] true) and panics with an ordering operator. *)
Theorem X4_json_null_field (ctx : Context) (sym : string) :
  ctx !! sym = Some GoNil ->
  (forall op f, In op operators ->
     Predicate_Eval MatchString Sprintf_f ctx (pred sym op (VFloat f)) = Err (ErrFailedComparison GoNil)) /\
  (forall op b, In op ["="; "<>"; "!="] ->
     Predicate_Eval MatchString Sprintf_f ctx (pred sym op (VBoolean b)) = Err (ErrFailedComparison GoNil)) /\
  (forall s, Predicate_Eval MatchString Sprintf_f ctx (pred sym "=" (VString s)) = Ok false /\
             Predicate_Eval MatchString Sprintf_f ctx (pred sym "<>" (VString s)) = Ok true /\
             Predicate_Eval MatchString Sprintf_f ctx (pred sym "!=" (VString s)) = Ok true) /\
  (forall op s, In op ordering_ops ->
     exists m, Predicate_Eval MatchString Sprintf_f ctx (pred sym op (VString s)) = Panic m).
Proof.
  intros Hx. unfold Predicate_Eval, pred; simpl. rewrite Hx.
  split; [|split; [|split]].
  - intros op f Hop. unfold operators in Hop. dispatch_op Hop; reflexivity.
  - intros op b Hop. dispatch_op Hop; reflexivity.
  - intros s. repeat split.
  - intros op s Hop. unfold ordering_ops in Hop. dispatch_op Hop; eexists; reflexivity.
Qed.

(** X5: a boolean literal compared with [=] against a string field parses
    the field with [strconv.ParseBool]: the six spellings 1, t, T, TRUE,
    true, True mean true, the six spellings 0, f, F, FALSE, false, False
    mean false, and any other string is a "not bool value" error. *)
Theorem X5_boolean_vs_string_field (ctx : Context) (sym str : string) (b : bool) :
  ctx !! sym = Some (GoString str) ->
  (In str ["1"; "t"; "T"; "TRUE"; "true"; "True"] ->
     Predicate_Eval MatchString Sprintf_f ctx (pred sym "=" (VBoolean b)) = Ok b) /\
  (In str ["0"; "f"; "F"; "FALSE"; "false"; "False"] ->
     Predicate_Eval MatchString Sprintf_f ctx (pred sym "=" (VBoolean b)) = Ok (negb b)) /\
  (~ In str ["1"; "t"; "T"; "TRUE"; "true"; "True"; "0"; "f"; "F"; "FALSE"; "false"; "False"] ->
     Predicate_Eval MatchString Sprintf_f ctx (pred sym "=" (VBoolean b)) = Err (ErrNotBoolValue str)).
Proof.
  intros Hx. unfold Predicate_Eval, pred; simpl. rewrite Hx. simpl.
  split; [|split].
  - intros Hin. dispatch_op Hin; destruct b; reflexivity.
  - intros Hin. dispatch_op Hin; destruct b; reflexivity.
  - intros Hnin. unfold ParseBool.
    destruct (existsb (String.eqb str) ["1"; "t"; "T"; "TRUE"; "true"; "True"]) eqn:Ht.
    { exfalso. apply Hnin. apply existsb_exists in Ht as [y [Hy Heq]].
      apply String.eqb_eq in Heq. subst y. simpl in Hy |- *. tauto. }
    destruct (existsb (String.eqb str) ["0"; "f"; "F"; "FALSE"; "false"; "False"]) eqn:Hf.
    { exfalso. apply Hnin. apply existsb_exists in Hf as [y [Hy Heq]].
      apply String.eqb_eq in Heq. subst y. simpl in Hy |- *. tauto. }
    reflexivity.
Qed.

Lemma and_loop_err (ctx : Context) (l : list (Condition regexp)) (err : error regexp) :
  and_loop MatchString Sprintf_f ctx l = Err err -> exists inner, err = ErrEvaluatingAnd inner.
Proof.
  induction l as [|c l IH]; simpl; [discriminate|].
  destruct (Condition_Eval MatchString Sprintf_f ctx c) as [[|]|e|m]; intros H;
    try discriminate; [exact (IH H)|injection H as <-; eauto].
Qed.

Lemma OrCondition_Eval_err (ctx : Context) (o : OrCondition regexp) (err : error regexp) :
  OrCondition_Eval MatchString Sprintf_f ctx o = Err err -> exists inner, err = ErrEvaluatingAnd inner.
Proof.
  destruct o as [[|c cs]]; [discriminate|].
  rewrite OrCondition_Eval_loop. apply and_loop_err.
Qed.

(** X6: every error [Expression.Eval] returns is wrapped twice, as
    "evaluating OR condition: evaluating AND condition: ...". *)
Theorem X6_error_shape (ctx : Context) (e : Expression regexp) (err : error regexp) :
  Expression_Eval MatchString Sprintf_f ctx e = Err err ->
  exists inner, err = ErrEvaluatingOr (ErrEvaluatingAnd inner).
Proof.
  destruct e as [ors]. rewrite Expression_Eval_loop.
  induction ors as [|o ors IH]; simpl; [discriminate|].
  destruct (OrCondition_Eval MatchString Sprintf_f ctx o) as [[|]|e|m] eqn:Ho; intros H;
    try discriminate; [exact (IH H)|].
  injection H as <-. destruct (OrCondition_Eval_err ctx o e Ho) as [inner ->]. eauto.
Qed.

Lemma expr_symbols_cons (o : OrCondition regexp) (l : list (OrCondition regexp)) :
  expr_symbols (mkExpression (o :: l)) = app (or_symbols o) (expr_symbols (mkExpression l)).
Proof. reflexivity. Qed.

Lemma or_symbols_cons (c : Condition regexp) (l : list (Condition regexp)) :
  or_symbols (mkOrCondition (c :: l)) = app (cond_symbols c) (or_symbols (mkOrCondition l)).
Proof. reflexivity. Qed.

Lemma Expression_Eval_agree (ctx1 ctx2 : Context) :
  forall e : Expression regexp,
  (forall x, In x (expr_symbols e) -> ctx1 !! x = ctx2 !! x) ->
  Expression_Eval MatchString Sprintf_f ctx1 e = Expression_Eval MatchString Sprintf_f ctx2 e.
Proof.
  fix IH 1. intros [ors] Hag.
  assert (Hors : or_loop MatchString Sprintf_f ctx1 ors = or_loop MatchString Sprintf_f ctx2 ors).
  { revert ors Hag. fix IHors 1. intros [|o ors] Hag; [reflexivity|].
    rewrite expr_symbols_cons in Hag.
    assert (Ho : OrCondition_Eval MatchString Sprintf_f ctx1 o = OrCondition_Eval MatchString Sprintf_f ctx2 o).
    { destruct o as [ands].
      assert (Hands : and_loop MatchString Sprintf_f ctx1 ands = and_loop MatchString Sprintf_f ctx2 ands).
      { assert (Hag' : forall x, In x (or_symbols (mkOrCondition ands)) -> ctx1 !! x = ctx2 !! x)
          by (intros x Hx; apply Hag, in_or_app; left; exact Hx).
        clear Hag IHors ors. revert ands Hag'. fix IHands 1. intros [|c cs] Hag; [reflexivity|].
        rewrite or_symbols_cons in Hag.
        assert (Hc : Condition_Eval MatchString Sprintf_f ctx1 c = Condition_Eval MatchString Sprintf_f ctx2 c).
        { destruct c as [e'|p]; simpl.
          - apply IH. intros x Hx. apply Hag, in_or_app. left. exact Hx.
          - unfold Predicate_Eval. rewrite (Hag (Symbol p)); [reflexivity|].
            simpl. left. reflexivity. }
        simpl. rewrite Hc.
        rewrite (IHands cs); [reflexivity|].
        intros x Hx. apply Hag, in_or_app. right. exact Hx. }
      destruct ands as [|c cs]; [reflexivity|].
      rewrite !OrCondition_Eval_loop. exact Hands. }
    simpl. rewrite Ho.
    rewrite (IHors ors); [reflexivity|].
    intros x Hx. apply Hag, in_or_app. right. exact Hx. }
  rewrite !Expression_Eval_loop. exact Hors.
Qed.

(** X7: the result of an expression depends only on the fields it names:
    two records that agree on every field named in its predicates give the
    same result (value, error or panic), whatever other fields they hold. *)
Theorem X7_unmentioned_fields_irrelevant (ctx1 ctx2 : Context) (e : Expression regexp) :
  (forall x, In x (expr_symbols e) -> ctx1 !! x = ctx2 !! x) ->
  Expression_Eval MatchString Sprintf_f ctx1 e = Expression_Eval MatchString Sprintf_f ctx2 e.
Proof. apply Expression_Eval_agree. Qed.

End Extras.

(** *** The lexer *)

Lemma str_app_cons (x : ascii) (a b : string) : String x a ++ b = String x (a ++ b).
Proof. reflexivity. Qed.

Lemma string_length_app (a b : string) : String.length (a ++ b) = String.length a + String.length b.
Proof. induction a as [|x a IH]; simpl; [reflexivity|]. rewrite IH. reflexivity. Qed.

(** X12: a query position that starts with TRUE, FALSE, AND, OR or NULL,
    in any mix of letter case, is lexed as that keyword alone, whatever
    follows: an identifier such as [order] or [nullable] is split into a
    keyword and the rest. *)
Theorem X12_keyword_prefix (k v rest : string) :
  In k keywords -> In v (case_variants k) ->
  next_token (v ++ rest) = Some (RKeyword, v, rest).
Proof.
  intros Hk Hv. unfold keywords in Hk.
  dispatch_op Hk; simpl in Hv; dispatch_op Hv; reflexivity.
Qed.

(** X13: an exclamation mark not followed by [=] matches no rule: a query
    containing it there is refused by the lexer. *)
Theorem X13_lone_bang_rejected (rest : string) :
  (forall r, rest <> String "=" r) ->
  next_token (String "!" rest) = None /\ tokenize (String "!" rest) = LexError (String "!" rest).
Proof.
  intros H.
  assert (Hn : next_token (String "!" rest) = None).
  { destruct rest as [|c r]; [reflexivity|].
    assert (Hc : Ascii.eqb c "=" = false).
    { apply Ascii.eqb_neq. intros ->. exact (H r eq_refl). }
    unfold next_token, lexer_rules. cbv beta iota fix.
    change (match_Operators (String "!" (String c r)))
      with (if is_two_char_operator "!" c then Some (String "!" (String c EmptyString), r)
            else if is_operator_char "!" then Some (String "!" EmptyString, String c r) else None).
    unfold is_two_char_operator. rewrite Hc. reflexivity. }
  split; [exact Hn|]. unfold tokenize. simpl. rewrite Hn. reflexivity.
Qed.

(** X14: a sign followed by a digit starts a [Float] token (so [-1] is one
    number, not an operator and a number). *)
Theorem X14_signed_number (sg d : ascii) (rest : string) :
  is_sign sg = true -> is_digit d = true ->
  exists span rest', next_token (String sg (String d rest)) = Some (RFloat, span, rest').
Proof.
  intros Hs Hd.
  assert (HF : exists span rest', match_Float (String sg (String d rest)) = Some (span, rest')).
  { unfold match_Float.
    replace (split_sign (String sg (String d rest))) with (String sg EmptyString, String d rest)
      by (unfold split_sign; rewrite Hs; reflexivity).
    replace (span_while is_digit (String d rest))
      with (let '(a, b) := span_while is_digit rest in (String d a, b))
      by (simpl; rewrite Hd; reflexivity).
    destruct (span_while is_digit rest) as [a b].
    cbv beta iota zeta delta [nonempty].
    destruct b as [|c r];
      [|destruct (Ascii.eqb c "."); [destruct (span_while is_digit r) as [d2 s3]; destruct d2|]];
      cbv beta iota zeta;
      repeat match goal with |- context [match_exponent ?x] => destruct (match_exponent x) end;
      eexists; eexists; reflexivity. }
  destruct HF as [span [rest' HF]].
  exists span, rest'.
  unfold is_sign in Hs. apply orb_true_iff in Hs as [Hs|Hs]; apply Ascii.eqb_eq in Hs; subst sg;
    unfold next_token, lexer_rules; cbv beta iota fix;
    (replace (match_Ident (String _ (String d rest))) with (@None (string * string)) by reflexivity);
    (replace (match_Keyword (String _ (String d rest))) with (@None (string * string)) by reflexivity);
    rewrite HF; reflexivity.
Qed.

Lemma escape_slash_head (p : string) (d : ascii) (r : string) :
  escape_slash p = String d r -> d <> "/"%char.
Proof.
  destruct p as [|c p]; simpl; [discriminate|].
  destruct (Ascii.eqb_spec c "/") as [->|Hc]; intros H; injection H as <- _;
    [discriminate|exact Hc].
Qed.

Lemma ReplaceAll_escaped_slash_cons2 (c d : ascii) (rest : string) :
  ReplaceAll_escaped_slash (String c (String d rest))
  = if (Ascii.eqb c "\" && Ascii.eqb d "/")%bool
    then String "/" (ReplaceAll_escaped_slash rest)
    else String c (ReplaceAll_escaped_slash (String d rest)).
Proof. reflexivity. Qed.

(** The unescaping of [RegexVal.Capture] undoes [escape_slash]. *)
Lemma ReplaceAll_escape_slash (p : string) :
  ReplaceAll_escaped_slash (escape_slash p) = p.
Proof.
  induction p as [|c p IH]; [reflexivity|].
  change (escape_slash (String c p))
    with (if Ascii.eqb c "/" then String "\" (String "/" (escape_slash p))
          else String c (escape_slash p)).
  destruct (Ascii.eqb_spec c "/") as [->|Hc].
  - rewrite ReplaceAll_escaped_slash_cons2, IH. reflexivity.
  - destruct (escape_slash p) as [|d r] eqn:E.
    + simpl in IH. subst p. reflexivity.
    + pose proof (escape_slash_head _ _ _ E) as Hd.
      rewrite ReplaceAll_escaped_slash_cons2.
      replace (Ascii.eqb d "/") with false by (symmetry; apply Ascii.eqb_neq; exact Hd).
      rewrite andb_false_r, IH. reflexivity.
Qed.

Lemma substring_prefix (a b : string) : substring 0 (String.length a) (a ++ b) = a.
Proof. induction a as [|c a IH]; simpl; [destruct b; reflexivity|]. rewrite IH. reflexivity. Qed.

Lemma scan_regex_escaped (p rest : string) :
  (forall c, In c (list_ascii_of_string p) -> c <> "\"%char) ->
  scan_regex (escape_slash p ++ String "/" rest) = Some (escape_slash p ++ "/", rest).
Proof.
  induction p as [|c p IH]; intros Hp; [reflexivity|].
  assert (Hp' : forall x, In x (list_ascii_of_string p) -> x <> "\"%char)
    by (intros x Hx; apply Hp; right; exact Hx).
  assert (Hc : c <> "\"%char) by (apply Hp; left; reflexivity).
  simpl. destruct (Ascii.eqb_spec c "/") as [->|Hcs].
  - rewrite !str_app_cons. simpl. rewrite (IH Hp'). reflexivity.
  - rewrite str_app_cons. simpl.
    replace (Ascii.eqb c "/") with false by (symmetry; apply Ascii.eqb_neq; exact Hcs).
    replace (Ascii.eqb c "\") with false by (symmetry; apply Ascii.eqb_neq; exact Hc).
    rewrite (IH Hp'). reflexivity.
Qed.

Lemma escape_slash_length (p : string) :
  String.length p <= String.length (escape_slash p).
Proof.
  induction p as [|c p IH]; [simpl; lia|].
  simpl. destruct (Ascii.eqb c "/"); simpl; lia.
Qed.

Lemma next_token_escaped (p rest : string) :
  (forall c, In c (list_ascii_of_string p) -> c <> "\"%char) ->
  next_token (String "/" (escape_slash p ++ String "/" rest))
  = Some (RRegex, String "/" (escape_slash p ++ "/"), rest).
Proof.
  intros Hp. unfold next_token, lexer_rules. cbv beta iota fix.
  change (match_Regex (String "/" (escape_slash p ++ String "/" rest)))
    with (match scan_regex (escape_slash p ++ String "/" rest) with
          | Some (a, b) => Some (String "/" a, b) | None => None end).
  rewrite (scan_regex_escaped p rest Hp). reflexivity.
Qed.

Lemma regex_body_escaped (p : string) :
  regex_body (String "/" (escape_slash p ++ "/")) = p.
Proof.
  unfold regex_body.
  replace (String.length (String "/" (escape_slash p ++ "/")) - 2)
    with (String.length (escape_slash p))
    by (simpl; rewrite string_length_app; simpl; lia).
  simpl. rewrite substring_prefix. apply ReplaceAll_escape_slash.
Qed.

Section RegexRoundTrip.
Context {regexp : Type}.
Variable regexp_Compile : string -> regexp + string.

(** X15: a non-empty pattern without backslashes, within the length and
    complexity limits, written between slashes with each of its slashes
    escaped as backslash-slash, is lexed as one [Regex] token;
    [RegexVal.Capture] on that literal sets the value's pattern to exactly
    the original pattern whatever the outcome of the compilation, and when
    the pattern compiles in time it returns the compiled matcher and no
    error. *)
Theorem X15_regex_literal_roundtrip (p rest : string) :
  (forall c, In c (list_ascii_of_string p) -> c <> "\"%char) ->
  p <> "" ->
  String.length p <= MaxRegexPatternLength ->
  complexity p <= MaxRegexComplexity ->
  next_token (String "/" (escape_slash p ++ String "/" rest))
  = Some (RRegex, String "/" (escape_slash p ++ "/"), rest) /\
  (forall r in_time,
     Pattern (fst (RegexVal_Capture regexp_Compile r
                     [String "/" (escape_slash p ++ "/")] in_time)) = p) /\
  (forall r re, regexp_Compile p = inl re ->
     RegexVal_Capture regexp_Compile r [String "/" (escape_slash p ++ "/")] true
     = (mkRegexVal p (Some re), None)).
Proof.
  intros Hp Hne Hlen Hcx.
  assert (H3 : Nat.ltb (String.length (String "/" (escape_slash p ++ "/"))) 3 = false).
  { apply Nat.ltb_ge. simpl. rewrite string_length_app. simpl.
    pose proof (escape_slash_length p).
    destruct p as [|c p']; [contradiction|]. simpl in *. lia. }
  assert (HL : Nat.ltb MaxRegexPatternLength (String.length p) = false)
    by (apply Nat.ltb_ge; exact Hlen).
  assert (HC : Nat.ltb MaxRegexComplexity (complexity p) = false)
    by (apply Nat.ltb_ge; exact Hcx).
  split; [exact (next_token_escaped p rest Hp)|]. split.
  - intros r in_time. unfold RegexVal_Capture.
    rewrite H3, regex_body_escaped, HL, HC.
    destruct in_time; [destruct (regexp_Compile p)|]; reflexivity.
  - intros r re Hre. unfold RegexVal_Capture.
    rewrite H3, regex_body_escaped, HL, HC, Hre. reflexivity.
Qed.

End RegexRoundTrip.


(** ** Counterexamples *)

(** C8: [a = NULL] on [{a: 0, b: 2}] is not the "failed to complete
    comparison" error. *)
Lemma C8_counterexample :
  ~ exists x, Predicate_Eval match_none sprintf_blank record_ab (pred "a" "=" VNull)
              = Err (ErrFailedComparison x).
Proof. intros [x H]. vm_compute in H. discriminate H. Qed.

(** C9: a nil [context.Context] is not cancelled, yet the result differs
    from [Test] on the same record. *)
Lemma C9_counterexample :
  TestWithContext match_none sprintf_blank matcher_empty None (Some record_ab)
  <> Test match_none sprintf_blank matcher_empty (Some record_ab).
Proof. vm_compute. discriminate. Qed.

(** C5: the body of [literal_braces] has 22 of the characters the
    specification lists (eleven opening and eleven closing braces), more
    than 20, yet [RegexVal.Capture] accepts it: the code's score counts
    only the eleven opening braces. *)
Lemma C5_counterexample :
  MaxRegexComplexity < complexity_as_claimed (regex_body literal_braces) /\
  complexity (regex_body literal_braces) = 11 /\
  RegexVal_Capture compile_ok (mkRegexVal "" None) [literal_braces] true
  = (mkRegexVal (regex_body literal_braces) (Some tt), None).
Proof. vm_compute. split; [lia|split; reflexivity]. Qed.

(** ** Witnesses *)

Lemma C1_witness :
  Forall (fun x => OrCondition_Eval match_none sprintf_blank record_ab x = Ok false) or_pre /\
  OrCondition_Eval match_none sprintf_blank record_ab or_hit = Ok true /\
  Expression_Eval match_none sprintf_blank record_ab (mkExpression (or_pre ++ or_hit :: or_post)) = Ok true.
Proof.
  assert (Hpre : Forall (fun x => OrCondition_Eval match_none sprintf_blank record_ab x = Ok false) or_pre).
  { constructor; [vm_compute; reflexivity|constructor]. }
  assert (Hhit : OrCondition_Eval match_none sprintf_blank record_ab or_hit = Ok true).
  { vm_compute; reflexivity. }
  split; [exact Hpre|split; [exact Hhit|]].
  exact (proj1 (C1_or_and_short_circuit match_none sprintf_blank record_ab) or_pre or_hit or_post Hpre Hhit).
Defined.

Lemma C3_witness :
  record_ab !! Symbol (pred (regexp:=unit) "missing" "=" (VFloat 1%float)) = None /\
  Predicate_Eval match_none sprintf_blank record_ab (pred "missing" "=" (VFloat 1%float)) = Ok false.
Proof.
  assert (H : record_ab !! Symbol (pred (regexp:=unit) "missing" "=" (VFloat 1%float)) = None).
  { vm_compute; reflexivity. }
  split; [exact H|exact (C3_missing_field_is_false match_none sprintf_blank record_ab _ H)].
Defined.

Lemma C4_witness :
  Regexp regex_J = Some tt /\ record_name !! "name" = Some (GoString "John") /\
  Predicate_Eval match_none sprintf_blank record_name (pred "name" "=" (VRegex regex_J))
  = Ok (match_none tt "John").
Proof.
  assert (Hre : Regexp regex_J = Some tt) by reflexivity.
  assert (Hx : record_name !! "name" = Some (GoString "John")) by (vm_compute; reflexivity).
  split; [exact Hre|split; [exact Hx|]].
  exact (proj1 (C4_regex_predicate match_none sprintf_blank record_name "name" regex_J tt _ Hre Hx)
           "John" eq_refl).
Defined.

Lemma C5_witness :
  exists e, snd (RegexVal_Capture compile_ok (mkRegexVal "" None) ["/a+b/"] false) = Some e.
Proof.
  exact (proj1 (proj2 (proj2 (C5_regex_capture_limits compile_ok (mkRegexVal "" None) "/a+b/" [] false)))
           eq_refl).
Defined.

Lemma C2_witness :
  record_n !! "n" = Some (GoInt 5) /\
  Predicate_Eval match_none sprintf_blank record_n (pred "n" ">" (VFloat 1%float))
  = conv_panic (GoInt 5) "int64".
Proof.
  assert (Hx : record_n !! "n" = Some (GoInt 5)) by (vm_compute; reflexivity).
  split; [exact Hx|].
  refine (proj2 (proj2 (C2_numeric_kind_assertions match_none sprintf_blank record_n "n" 1%float (GoInt 5) Hx))
            eq_refl _ ">" _).
  - intros z H. discriminate H.
  - simpl. left. reflexivity.
Defined.

Lemma C6_witness :
  record_ab !! "b" = Some (GoFloat64 2%float) /\
  Predicate_Eval match_none sprintf_blank record_ab (pred "b" "=" (VBoolean true))
  = Err (ErrFailedComparison (GoFloat64 2%float)).
Proof.
  assert (Hx : record_ab !! "b" = Some (GoFloat64 2%float)) by (vm_compute; reflexivity).
  split; [exact Hx|].
  apply (C6_boolean_against_float64 match_none sprintf_blank record_ab "b" true 2%float Hx).
  simpl. left. reflexivity.
Defined.

Lemma C7_witness :
  record_bool !! "s" = Some (GoBool true) /\
  Predicate_Eval match_none sprintf_blank record_bool (pred "s" ">" (VString "a"))
  = Panic "interface conversion: interface {} is bool, not string".
Proof.
  assert (Hx : record_bool !! "s" = Some (GoBool true)) by (vm_compute; reflexivity).
  split; [exact Hx|].
  apply (C7_string_order_on_bool_panics match_none sprintf_blank record_bool "s" "a" true Hx).
  simpl. left. reflexivity.
Defined.

Lemma C8_witness :
  record_ab !! "a" = Some (GoFloat64 0%float) /\
  Predicate_Eval match_none sprintf_blank record_ab (pred "a" "=" VNull)
  = Err (ErrUnknownValueType VNull).
Proof.
  assert (Hx : record_ab !! "a" = Some (GoFloat64 0%float)) by (vm_compute; reflexivity).
  split; [exact Hx|].
  apply (C8_null_value_unknown_type match_none sprintf_blank record_ab "a" "=" _ Hx).
  simpl. left. reflexivity.
Defined.

Lemma X1_witness :
  In "!=" ["<>"; "!="] /\
  Predicate_Eval match_none sprintf_blank record_ab (pred "b" "!=" (VFloat 2%float))
  = negate_result (Predicate_Eval match_none sprintf_blank record_ab (pred "b" "=" (VFloat 2%float))).
Proof.
  assert (H : In "!=" ["<>"; "!="]) by (right; left; reflexivity).
  split; [exact H|].
  exact (X1_ne_negates_eq match_none sprintf_blank record_ab "b" "!=" (VFloat 2%float) H).
Defined.

Lemma X3_witness :
  record_ab !! "b" = Some (GoFloat64 2%float) /\ In ">=" operators /\
  Predicate_Eval match_none sprintf_blank record_ab (pred "b" ">=" (VFloat 1%float))
  = Ok (float_compare ">=" 2%float 1%float).
Proof.
  assert (Hx : record_ab !! "b" = Some (GoFloat64 2%float)) by (vm_compute; reflexivity).
  assert (Hop : In ">=" operators) by (simpl; tauto).
  split; [exact Hx|split; [exact Hop|]].
  exact (X3_float64_field match_none sprintf_blank record_ab "b" ">=" 2%float 1%float Hx Hop).
Defined.

Lemma X4_witness :
  record_null !! "a" = Some GoNil /\
  Predicate_Eval match_none sprintf_blank record_null (pred "a" "=" (VString "x")) = Ok false.
Proof.
  assert (Hx : record_null !! "a" = Some GoNil) by (vm_compute; reflexivity).
  split; [exact Hx|].
  exact (proj1 (proj1 (proj2 (proj2 (X4_json_null_field match_none sprintf_blank record_null "a" Hx))) "x")).
Defined.

Lemma X5_witness :
  record_str !! "s" = Some (GoString "yes") /\
  ~ In "yes" ["1"; "t"; "T"; "TRUE"; "true"; "True"; "0"; "f"; "F"; "FALSE"; "false"; "False"] /\
  Predicate_Eval match_none sprintf_blank record_str (pred "s" "=" (VBoolean true))
  = Err (ErrNotBoolValue "yes").
Proof.
  assert (Hx : record_str !! "s" = Some (GoString "yes")) by (vm_compute; reflexivity).
  assert (Hn : ~ In "yes" ["1"; "t"; "T"; "TRUE"; "true"; "True"; "0"; "f"; "F"; "FALSE"; "false"; "False"])
    by (simpl; intuition discriminate).
  split; [exact Hx|split; [exact Hn|]].
  exact (proj2 (proj2 (X5_boolean_vs_string_field match_none sprintf_blank record_str "s" "yes" true Hx)) Hn).
Defined.

Lemma X6_witness :
  Expression_Eval match_none sprintf_blank record_ab expr_bad
  = Err (ErrEvaluatingOr (ErrEvaluatingAnd (ErrBooleanOrder (VBoolean true)))) /\
  exists inner : error unit, ErrEvaluatingOr (ErrEvaluatingAnd (ErrBooleanOrder (VBoolean true)))
                = ErrEvaluatingOr (ErrEvaluatingAnd inner).
Proof.
  assert (H : Expression_Eval match_none sprintf_blank record_ab expr_bad
              = Err (ErrEvaluatingOr (ErrEvaluatingAnd (ErrBooleanOrder (VBoolean true)))))
    by (vm_compute; reflexivity).
  split; [exact H|].
  exact (X6_error_shape match_none sprintf_blank record_ab expr_bad _ H).
Defined.

Lemma X7_witness :
  (forall x, In x (expr_symbols expr_a) -> record_ab !! x = record_abz !! x) /\
  Expression_Eval match_none sprintf_blank record_ab expr_a
  = Expression_Eval match_none sprintf_blank record_abz expr_a.
Proof.
  assert (H : forall x, In x (expr_symbols expr_a) -> record_ab !! x = record_abz !! x).
  { intros x Hx. simpl in Hx. destruct Hx as [<-|[]]. vm_compute. reflexivity. }
  split; [exact H|].
  exact (X7_unmentioned_fields_irrelevant match_none sprintf_blank record_ab record_abz expr_a H).
Defined.

Lemma X12_witness :
  In "OR" keywords /\ In "or" (case_variants "OR") /\
  next_token ("or" ++ "der") = Some (RKeyword, "or", "der").
Proof.
  assert (Hk : In "OR" keywords) by (simpl; tauto).
  assert (Hv : In "or" (case_variants "OR")) by (vm_compute; tauto).
  split; [exact Hk|split; [exact Hv|]].
  exact (X12_keyword_prefix "OR" "or" "der" Hk Hv).
Defined.

Lemma X13_witness :
  (forall r, " b" <> String "=" r) /\
  next_token (String "!" " b") = None /\ tokenize (String "!" " b") = LexError (String "!" " b").
Proof.
  assert (H : forall r, " b" <> String "=" r) by (intros r Hr; discriminate Hr).
  split; [exact H|].
  exact (X13_lone_bang_rejected " b" H).
Defined.

Lemma X14_witness :
  is_sign "-" = true /\ is_digit "1" = true /\
  exists span rest', next_token (String "-" (String "1" "5")) = Some (RFloat, span, rest').
Proof.
  assert (Hs : is_sign "-" = true) by reflexivity.
  assert (Hd : is_digit "1" = true) by reflexivity.
  split; [exact Hs|split; [exact Hd|]].
  exact (X14_signed_number "-" "1" "5" Hs Hd).
Defined.

Lemma X15_witness :
  ((forall c, In c (list_ascii_of_string "a/b") -> c <> "\"%char) /\
   "a/b" <> "" /\
   String.length "a/b" <= MaxRegexPatternLength /\
   complexity "a/b" <= MaxRegexComplexity) /\
  RegexVal_Capture compile_ok (mkRegexVal "" None)
    [String "/" (escape_slash "a/b" ++ "/")] true
  = (mkRegexVal "a/b" (Some tt), None).
Proof.
  assert (H : forall c, In c (list_ascii_of_string "a/b") -> c <> "\"%char).
  { intros c Hc. simpl in Hc. destruct Hc as [<-|[<-|[<-|[]]]]; discriminate. }
  assert (Hne : "a/b" <> "") by discriminate.
  assert (Hlen : String.length "a/b" <= MaxRegexPatternLength)
    by (vm_compute; lia).
  assert (Hcx : complexity "a/b" <= MaxRegexComplexity) by (vm_compute; lia).
  split; [exact (conj H (conj Hne (conj Hlen Hcx)))|].
  exact (proj2 (proj2 (X15_regex_literal_roundtrip compile_ok "a/b" " x" H Hne Hlen Hcx))
           (mkRegexVal "" None) tt eq_refl).
Defined.
